(** * A shallow embedding of the FVM syscall layer, gas protocol and
    validate executor (fvm/src/syscalls, fvm/src/executor/validator.rs). *)

From Stdlib Require Import ZArith NArith List String Bool Lia Strings.Byte.
Import ListNotations.
Open Scope Z_scope.

(** ** Rust's [Result] *)

Inductive result (T E : Type) : Type :=
| Ok (v : T)
| Err (e : E).
Arguments Ok {T E} v.
Arguments Err {T E} e.

(** [m?] inside a function whose error type is that of [m]. *)
Notation "'let?' x := m 'in' f" :=
  (match m with Ok x => f | Err e => Err e end)
  (at level 200, x name, m at level 100, f at level 200).

Definition map_err {T E E'} (f : E -> E') (r : result T E) : result T E' :=
  match r with Ok v => Ok v | Err e => Err (f e) end.

Definition is_ok {T E} (r : result T E) : bool :=
  match r with Ok _ => true | Err _ => false end.

(** ** Machine integers *)

Definition i64_min : Z := - 2 ^ 63.
Definition i64_max : Z := 2 ^ 63 - 1.

(** [i64::saturating_sub]: the difference clamped to the range of [i64]. *)
Definition i64_saturating_sub (a b : Z) : Z :=
  let d := a - b in
  if d <? i64_min then i64_min
  else if i64_max <? d then i64_max
  else d.

(** ** Errors *)

(** [fvm_shared::error::ErrorNumber] (the cases the handlers raise). *)
Inductive ErrorNumber :=
| IllegalArgument
| IllegalOperation
| NotFound
| Serialization
| LimitExceeded.

(** [kernel::ExecutionError]. *)
Inductive ExecutionError :=
| OutOfGas
| Syscall (n : ErrorNumber) (msg : string)
| Fatal (msg : string).

(** [syscalls::error::Abort]. *)
Inductive Abort :=
| AbortExit (code : Z) (msg : string)
| AbortOutOfGas
| AbortFatal (msg : string).

(** [Abort::from_error_as_fatal]: a syscall error at this point is a host fault. *)
Definition from_error_as_fatal (e : ExecutionError) : Abort :=
  match e with
  | OutOfGas => AbortOutOfGas
  | Syscall _ msg => AbortFatal msg
  | Fatal msg => AbortFatal msg
  end.

(** ** Gas *)

(** [gas::Gas], kept in milligas. *)
Record Gas := { gas_milligas : Z }.
Definition from_milligas (m : Z) : Gas := {| gas_milligas := m |}.
Definition as_milligas (g : Gas) : Z := gas_milligas g.

(** The part of the [Kernel] trait the gas protocol uses. *)
Class GasOps (K : Type) := {
  gas_available : K -> Gas;
  charge_gas : string -> Gas -> K -> result unit ExecutionError * K
}.

(** ** The wasm store *)

(** [wasmtime::Val] (the numeric cases). *)
Inductive Val :=
| I32 (z : Z)
| I64 (z : Z)
| F32 (bits : Z)
| F64 (bits : Z).

(** [Val::i64]. *)
Definition val_i64 (v : Val) : option Z :=
  match v with I64 z => Some z | _ => None end.

Definition same_val_type (a b : Val) : bool :=
  match a, b with
  | I32 _, I32 _ | I64 _, I64 _ | F32 _, F32 _ | F64 _, F64 _ => true
  | _, _ => false
  end.

Inductive Mutability := Const | Var.

(** The store-side cell of a wasm global. *)
Record GlobalCell := {
  global_mutability : Mutability;
  global_value : Val
}.

(** [Global::set]: refused for a constant global or a value of another type. *)
Definition global_set (g : GlobalCell) (v : Val) : result GlobalCell string :=
  match global_mutability g with
  | Const => Err "immutable global cannot be set"%string
  | Var =>
      if same_val_type (global_value g) v
      then Ok {| global_mutability := Var; global_value := v |}
      else Err "type mismatch"%string
  end.

(** [Global::get]. *)
Definition global_get (g : GlobalCell) : Val := global_value g.

(** Sandbox linear memory. *)
Definition Memory := list byte.

(** [InvocationData]: the data attached to the wasm store.  The store has one
    global, the gas register, whose cell is kept next to the data; the handle
    [avail_gas_global] of the source points to it. *)
Record InvocationData (K : Type) := {
  kernel : K;
  last_error : option string;
  last_milligas_available : Z;
  memory : Memory
}.
Arguments kernel {K}.
Arguments last_error {K}.
Arguments last_milligas_available {K}.
Arguments memory {K}.

Record Store (K : Type) := {
  store_data : InvocationData K;
  avail_gas_global : GlobalCell
}.
Arguments store_data {K}.
Arguments avail_gas_global {K}.

Section GasProtocol.
Context {K : Type} `{GasOps K}.

Definition set_kernel (k : K) (d : InvocationData K) : InvocationData K :=
  {| kernel := k; last_error := last_error d;
     last_milligas_available := last_milligas_available d; memory := memory d |}.

Definition set_last_milligas (m : Z) (d : InvocationData K) : InvocationData K :=
  {| kernel := kernel d; last_error := last_error d;
     last_milligas_available := m; memory := memory d |}.

Definition with_data (d : InvocationData K) (s : Store K) : Store K :=
  {| store_data := d; avail_gas_global := avail_gas_global s |}.

Definition with_global (g : GlobalCell) (s : Store K) : Store K :=
  {| store_data := store_data s; avail_gas_global := g |}.

(** [update_gas_available] (syscalls/mod.rs): writes the kernel's available
    milligas into the register and records it as the last-set value. *)
Definition update_gas_available (s : Store K) : result unit Abort * Store K :=
  let avail_milligas := as_milligas (gas_available (kernel (store_data s))) in
  match global_set (avail_gas_global s) (I64 avail_milligas) with
  | Err e => (Err (AbortFatal ("failed to set available gas global: " ++ e)), s)
  | Ok g =>
      let s := with_global g s in
      (Ok tt, with_data (set_last_milligas avail_milligas (store_data s)) s)
  end.

(** [charge_for_exec] (syscalls/mod.rs): charges the kernel for the gas the
    sandbox consumed since the last checkpoint.  The store keeps the new
    [last_milligas_available] even when the charge fails. *)
Definition charge_for_exec (s : Store K) : result unit Abort * Store K :=
  match val_i64 (global_get (avail_gas_global s)) with
  | None => (Err (AbortFatal "failed to get wasm gas"), s)
  | Some milligas_available =>
      let last_milligas := last_milligas_available (store_data s) in
      let s := with_data (set_last_milligas milligas_available (store_data s)) s in
      (* This should never be negative, but we might as well check. *)
      let milligas_used := i64_saturating_sub last_milligas milligas_available in
      match charge_gas "wasm_exec" (from_milligas milligas_used) (kernel (store_data s)) with
      | (Err e, k) => (Err (from_error_as_fatal e), with_data (set_kernel k (store_data s)) s)
      | (Ok tt, k) => (Ok tt, with_data (set_kernel k (store_data s)) s)
      end
  end.

End GasProtocol.

(** ** Sandbox memory access *)

(** Modelled from the spec: [Memory::try_slice] (syscalls/context.rs, not part
    of these sources).  A buffer argument is an (offset, length) pair resolved
    against the invocation's memory; an out-of-range one fails with
    IllegalArgument and reads nothing. *)
Definition try_slice (m : Memory) (off len : N) : result (list byte) ExecutionError :=
  if (off + len <=? N.of_nat (List.length m))%N
  then Ok (firstn (N.to_nat len) (skipn (N.to_nat off) m))
  else Err (Syscall IllegalArgument "buffer out of bounds").

(** [std::str::from_utf8]: UTF-8 well-formedness as Rust checks it. *)
Fixpoint utf8_valid (bs : list N) : bool :=
  let cont b := ((0x80 <=? b) && (b <=? 0xBF))%N in
  let range lo hi b := ((lo <=? b) && (b <=? hi))%N in
  match bs with
  | [] => true
  | b1 :: r1 =>
      if (b1 <? 0x80)%N then utf8_valid r1
      else if range 0xC2%N 0xDF%N b1 then
        match r1 with b2 :: r2 => cont b2 && utf8_valid r2 | [] => false end
      else if range 0xE0%N 0xEF%N b1 then
        match r1 with
        | b2 :: b3 :: r3 =>
            (if (b1 =? 0xE0)%N then range 0xA0%N 0xBF%N b2
             else if (b1 =? 0xED)%N then range 0x80%N 0x9F%N b2
             else cont b2) && cont b3 && utf8_valid r3
        | _ => false
        end
      else if range 0xF0%N 0xF4%N b1 then
        match r1 with
        | b2 :: b3 :: b4 :: r4 =>
            (if (b1 =? 0xF0)%N then range 0x90%N 0xBF%N b2
             else if (b1 =? 0xF4)%N then range 0x80%N 0x8F%N b2
             else cont b2) && cont b3 && cont b4 && utf8_valid r4
        | _ => false
        end
      else false
  end.

Definition string_of_bytes (bs : list byte) : string :=
  string_of_list_ascii (map Ascii.ascii_of_byte bs).

Definition from_utf8 (bs : list byte) : option string :=
  if utf8_valid (map Byte.to_N bs) then Some (string_of_bytes bs) else None.

(** ** Kernel capabilities used by the handlers *)

(** [DebugOps]. *)
Class DebugOps (K : Type) := {
  debug_enabled : K -> bool;
  kernel_log : string -> K -> K;
  kernel_store_artifact : string -> list byte -> K -> result unit ExecutionError * K
}.

(** [RandomnessOps]; the 32-byte output as a list of bytes. *)
Class RandomnessOps (K : Type) := {
  get_randomness_from_tickets :
    Z -> Z -> list byte -> K -> result (list byte) ExecutionError * K;
  get_randomness_from_beacon :
    Z -> Z -> list byte -> K -> result (list byte) ExecutionError * K
}.

Inductive Address := Addr (payload : list byte).

(** [BlockStat]. *)
Record BlockStat := { codec : Z; size : Z }.

(** [kernel::SendResult]. *)
Inductive SendResult :=
| Return (id : Z) (stat : BlockStat)
| SendAbort (code : Z).

(** [SendOps]; the value is the token amount in atto. *)
Class SendOps (K : Type) := {
  kernel_send : Address -> Z -> Z -> Z -> K -> result SendResult ExecutionError * K
}.

(** [ExitCode::OK.value()]. *)
Definition exit_code_ok : Z := 0.

(** [sys::out::send::Send]. *)
Record SendOut := {
  exit_code : Z;
  return_id : Z;
  return_codec : Z;
  return_size : Z
}.

(** [syscalls::context::Context]: the kernel and memory handed to a handler. *)
Record Context (K : Type) := { ctx_kernel : K; ctx_memory : Memory }.
Arguments ctx_kernel {K}.
Arguments ctx_memory {K}.

Definition with_kernel {K} (k : K) (c : Context K) : Context K :=
  {| ctx_kernel := k; ctx_memory := ctx_memory c |}.

(** A handler's outcome: its result and the context it leaves behind. *)
Definition Handled (K T : Type) : Type := result T ExecutionError * Context K.

(** ** syscalls/debug.rs *)
Module Debug.
Section Handlers.
Context {K : Type} `{DebugOps K}.

Definition log (context : Context K) (msg_off msg_len : N) : Handled K unit :=
  (* No-op if disabled. *)
  if negb (debug_enabled (ctx_kernel context)) then (Ok tt, context) else
  match try_slice (ctx_memory context) msg_off msg_len with
  | Err e => (Err e, context)
  | Ok msg =>
      match from_utf8 msg with
      | None => (Err (Syscall IllegalArgument "invalid utf8"), context)
      | Some msg => (Ok tt, with_kernel (kernel_log msg (ctx_kernel context)) context)
      end
  end.

Definition enabled (context : Context K) : Handled K Z :=
  (Ok (if debug_enabled (ctx_kernel context) then 0 else -1), context).

Definition store_artifact (context : Context K)
    (name_off name_len data_off data_len : N) : Handled K unit :=
  (* No-op if disabled. *)
  if negb (debug_enabled (ctx_kernel context)) then (Ok tt, context) else
  match try_slice (ctx_memory context) data_off data_len with
  | Err e => (Err e, context)
  | Ok data =>
      match try_slice (ctx_memory context) name_off name_len with
      | Err e => (Err e, context)
      | Ok name =>
          match from_utf8 name with
          | None => (Err (Syscall IllegalArgument "invalid utf8"), context)
          | Some name =>
              match kernel_store_artifact name data (ctx_kernel context) with
              | (Err e, k) => (Err e, with_kernel k context)
              | (Ok tt, k) => (Ok tt, with_kernel k context)
              end
          end
      end
  end.

End Handlers.
End Debug.

(** ** syscalls/rand.rs *)
Module Rand.
Section Handlers.
Context {K : Type} `{RandomnessOps K}.

Definition get_chain_randomness (context : Context K) (pers round : Z)
    (entropy_off entropy_len : N) : Handled K (list byte) :=
  match try_slice (ctx_memory context) entropy_off entropy_len with
  | Err e => (Err e, context)
  | Ok entropy =>
      let (r, k) := get_randomness_from_tickets pers round entropy (ctx_kernel context) in
      (r, with_kernel k context)
  end.

Definition get_beacon_randomness (context : Context K) (pers round : Z)
    (entropy_off entropy_len : N) : Handled K (list byte) :=
  match try_slice (ctx_memory context) entropy_off entropy_len with
  | Err e => (Err e, context)
  | Ok entropy =>
      let (r, k) := get_randomness_from_beacon pers round entropy (ctx_kernel context) in
      (r, with_kernel k context)
  end.

End Handlers.
End Rand.

(** ** syscalls/send.rs *)
Module Send.
Section Handlers.
Context {K : Type} `{SendOps K}.
(** [Address::from_bytes], left abstract: the results hold for every decoder. *)
Variable address_from_bytes : list byte -> result Address ExecutionError.

(** [Context::read_address]: the recipient buffer, then its decoding. *)
Definition read_address (m : Memory) (off len : N) : result Address ExecutionError :=
  let? bytes := try_slice m off len in
  address_from_bytes bytes.

(** [(value_hi as u128) << 64 | value_lo as u128]. *)
Definition token_value (value_hi value_lo : Z) : Z :=
  Z.lor (Z.shiftl value_hi 64 mod 2 ^ 128) value_lo.

Definition send (context : Context K) (recipient_off recipient_len : N)
    (method params_id value_hi value_lo : Z) : Handled K SendOut :=
  match read_address (ctx_memory context) recipient_off recipient_len with
  | Err e => (Err e, context)
  | Ok recipient =>
      let value := token_value value_hi value_lo in
      match kernel_send recipient method params_id value (ctx_kernel context) with
      | (Err e, k) => (Err e, with_kernel k context)
      | (Ok (Return id stat), k) =>
          (Ok {| exit_code := exit_code_ok; return_id := id;
                 return_codec := codec stat; return_size := size stat |},
           with_kernel k context)
      | (Ok (SendAbort code), k) =>
          (Ok {| exit_code := code; return_id := 0;
                 return_codec := 0; return_size := 0 |},
           with_kernel k context)
      end
  end.

End Handlers.
End Send.

(** ** executor/validator.rs *)
Module Validator.

(** [anyhow::Error]: a message, an [ExecutionError] converted by [?], or an
    error with a context attached. *)
Inductive AnyError :=
| anyhow (msg : string)
| from_exec (e : ExecutionError)
| context_of (ctx : string) (e : AnyError).

(** [call_manager::backtrace::Frame]. *)
Record Frame := {
  frame_source : Z;
  frame_method : Z;
  frame_code : Z;
  frame_message : string
}.

(** [call_manager::backtrace::Backtrace]: the frames and the abort cause. *)
Record Backtrace := {
  frames : list Frame;
  cause : option string
}.

Definition bt_is_empty (bt : Backtrace) : bool :=
  match frames bt, cause bt with [], None => true | _, _ => false end.

(** [Backtrace::clear]. *)
Definition bt_clear (bt : Backtrace) : Backtrace := {| frames := []; cause := None |}.

(** [ApplyFailure]. *)
Inductive ApplyFailure := MessageBacktrace (bt : Backtrace).

(** [kernel::Block]. *)
Record Block := { blk_codec : Z; blk_data : list byte }.

Definition DAG_CBOR : Z := 0x71.

(** [call_manager::InvocationResult]. *)
Inductive InvocationResult :=
| InvReturn (return_value : option Block)
| InvFailure (exit_code : Z).

(** [ExitCode::is_success]. *)
Definition is_success (code : Z) : bool := code =? 0.

(** [fvm_shared::message::Message] (the fields the validator reads). *)
Record Message := {
  msg_from : Address;
  msg_sequence : Z;
  msg_params : list byte
}.

(** [ValidateParams]. *)
Record ValidateParams := {
  signature : list byte;
  message_payload : list byte
}.

Definition VALIDATION_GAS_LIMIT : Z := i64_max.

(** The outcome of the call manager's run, as [cm.finish()] hands it back:
    the invocation result, the gas used and the backtrace. *)
Definition CallOutcome : Type := result InvocationResult ExecutionError * Z * Backtrace.

Section Validate.
Variable GasSpec : Type.
(** [StateTree::lookup_id]. *)
Variable lookup_id : Address -> result (option Z) AnyError.
(** [ValidateParams::marshal_cbor]. *)
Variable marshal_cbor : ValidateParams -> result (list byte) AnyError.
(** [CallManager::new] with the gas limit, origin and sequence, then
    [with_transaction] around [cm.validate(params, sender_id)], then [finish]. *)
Variable call_validate : Z -> Z * Address -> Z -> Block -> Z -> CallOutcome.
(** [RawBytes::deserialize::<GasSpec>]. *)
Variable deserialize : list byte -> result GasSpec AnyError.
(** The [Display] rendering of an [Address], as [format!("{}", addr)] gives it. *)
Variable address_to_string : Address -> string.

(** The closure given to [map_machine]. *)
Definition run_validation (msg : Message) (sig : list byte) (sender_id : Z)
    : result CallOutcome ExecutionError :=
  match marshal_cbor {| signature := sig; message_payload := msg_params msg |} with
  | Err _ => Err OutOfGas
  | Ok params =>
      let params := {| blk_codec := DAG_CBOR; blk_data := params |} in
      Ok (call_validate VALIDATION_GAS_LIMIT (sender_id, msg_from msg)
            (msg_sequence msg) params sender_id)
  end.

(** Lines 109-128: the result of the message and the backtrace after it. *)
Definition validate_result (res : result InvocationResult ExecutionError)
    (backtrace : Backtrace) : result (result (list byte) unit * Backtrace) AnyError :=
  match res with
  | Ok (InvReturn return_value) =>
      let return_data :=
        match return_value with Some blk => blk_data blk | None => [] end in
      Ok (Ok return_data, bt_clear backtrace)
  | Ok (InvFailure exit_code) =>
      if is_success exit_code
      then Err (anyhow "actor failed with status OK")
      else Ok (Err tt, backtrace)
  | Err _ => Ok (Err tt, backtrace)
  end.

(** Lines 130-134. *)
Definition failure_info (result : result (list byte) unit) (backtrace : Backtrace)
    : option ApplyFailure :=
  if bt_is_empty backtrace || is_ok result then None
  else Some (MessageBacktrace backtrace).

(** Lines 109-140. *)
Definition finish_validation (res : result InvocationResult ExecutionError)
    (backtrace : Backtrace) : result GasSpec AnyError :=
  match validate_result res backtrace with
  | Err e => Err e
  | Ok (result, backtrace) =>
      let _failure_info := failure_info result backtrace in
      match result with
      | Err _ => Err (anyhow "actor failed to validate with TODO")
      | Ok return_data =>
          map_err (fun _ => anyhow "failed to unmarshall return data from validate")
            (deserialize return_data)
      end
  end.

(** [ValidateExecutor::validate_message] for [DefaultValidateExecutor]. *)
Definition validate_message (msg : Message) (sig : list byte) : result GasSpec AnyError :=
  match lookup_id (msg_from msg) with
  | Err e => Err (context_of ("failed to lookup actor " ++ address_to_string (msg_from msg)) e)
  | Ok None => Err (anyhow "TODO")
  | Ok (Some sender_id) =>
      match run_validation msg sig sender_id with
      | Err e => Err (from_exec e)
      | Ok (res, _gas_used, backtrace) => finish_validation res backtrace
      end
  end.

End Validate.
End Validator.

(** ** The binding tables of syscalls/mod.rs *)
Module Binding.

(** The handler functions the tables bind. *)
Inductive Handler :=
| vm_abort | vm_context
| network_base_fee | network_total_fil_circ_supply
| ipld_block_open | ipld_block_create | ipld_block_read | ipld_block_stat | ipld_block_link
| sself_root | sself_set_root | sself_current_balance | sself_self_destruct
| actor_resolve_address | actor_get_actor_code_cid | actor_new_actor_address
| actor_create_actor | actor_get_builtin_actor_type | actor_get_code_cid_for_type
| actor_install_actor
| crypto_verify_signature | crypto_hash | crypto_verify_seal | crypto_verify_post
| crypto_compute_unsealed_sector_cid | crypto_verify_consensus_fault
| crypto_verify_aggregate_seals | crypto_verify_replica_update | crypto_batch_verify_seals
| rand_get_chain_randomness | rand_get_beacon_randomness
| gas_charge_gas
| send_send
| debug_log | debug_enabled | debug_store_artifact.

(** The closure [check] of [bind_checked_syscalls] (its body is [todo!()]). *)
Inductive Check := check.

(** What a (module, function) import resolves to. *)
Inductive Bound :=
| Unchecked (h : Handler)
| Checked (h : Handler) (c : Check).

Definition Linker : Type := list (string * string * Bound).

Definition entry_name (e : string * string * Bound) : string * string :=
  let '(m, f, _) := e in (m, f).

Definition defined (l : Linker) (module name : string) : bool :=
  existsb (fun e => let '(m, f) := entry_name e in String.eqb m module && String.eqb f name) l.

(** Modelled from the spec: [BindSyscall::bind] and [bind_checked] (bind.rs, not
    part of these sources), which define the host function under its
    two-part name; a (module, function) name maps to one handler, so a
    second definition of the same name is refused. *)
Definition define (module name : string) (b : Bound) (l : Linker) : result Linker string :=
  if defined l module name then Err "import defined twice"%string
  else Ok (l ++ [(module, name, b)]).

Definition bind (module name : string) (h : Handler) (l : Linker) : result Linker string :=
  define module name (Unchecked h) l.

Definition bind_checked (module name : string) (h : Handler) (c : Check) (l : Linker)
    : result Linker string :=
  define module name (Checked h c) l.

(** [bind_syscalls]; [m2_native] is the cargo feature of the same name. *)
Definition bind_syscalls (m2_native : bool) (linker : Linker) : result Linker string :=
  let? linker := bind "vm" "abort" vm_abort linker in
  let? linker := bind "vm" "context" vm_context linker in
  let? linker := bind "network" "base_fee" network_base_fee linker in
  let? linker := bind "network" "total_fil_circ_supply" network_total_fil_circ_supply linker in
  let? linker := bind "ipld" "block_open" ipld_block_open linker in
  let? linker := bind "ipld" "block_create" ipld_block_create linker in
  let? linker := bind "ipld" "block_read" ipld_block_read linker in
  let? linker := bind "ipld" "block_stat" ipld_block_stat linker in
  let? linker := bind "ipld" "block_link" ipld_block_link linker in
  let? linker := bind "self" "root" sself_root linker in
  let? linker := bind "self" "set_root" sself_set_root linker in
  let? linker := bind "self" "current_balance" sself_current_balance linker in
  let? linker := bind "self" "self_destruct" sself_self_destruct linker in
  let? linker := bind "actor" "resolve_address" actor_resolve_address linker in
  let? linker := bind "actor" "get_actor_code_cid" actor_get_actor_code_cid linker in
  let? linker := bind "actor" "new_actor_address" actor_new_actor_address linker in
  let? linker := bind "actor" "create_actor" actor_create_actor linker in
  let? linker := bind "actor" "get_builtin_actor_type" actor_get_builtin_actor_type linker in
  let? linker := bind "actor" "get_code_cid_for_type" actor_get_code_cid_for_type linker in
  (* Only wire this syscall when M2 native is enabled. *)
  let? linker :=
    (if m2_native then bind "actor" "install_actor" actor_install_actor linker
     else Ok linker) in
  let? linker := bind "crypto" "verify_signature" crypto_verify_signature linker in
  let? linker := bind "crypto" "hash" crypto_hash linker in
  let? linker := bind "crypto" "verify_seal" crypto_verify_seal linker in
  let? linker := bind "crypto" "verify_post" crypto_verify_post linker in
  let? linker := bind "crypto" "compute_unsealed_sector_cid" crypto_compute_unsealed_sector_cid linker in
  let? linker := bind "crypto" "verify_consensus_fault" crypto_verify_consensus_fault linker in
  let? linker := bind "crypto" "verify_aggregate_seals" crypto_verify_aggregate_seals linker in
  let? linker := bind "crypto" "verify_replica_update" crypto_verify_replica_update linker in
  let? linker := bind "crypto" "batch_verify_seals" crypto_batch_verify_seals linker in
  let? linker := bind "rand" "get_chain_randomness" rand_get_chain_randomness linker in
  let? linker := bind "rand" "get_beacon_randomness" rand_get_beacon_randomness linker in
  let? linker := bind "gas" "charge" gas_charge_gas linker in
  let? linker := bind "send" "send" send_send linker in
  let? linker := bind "debug" "log" debug_log linker in
  let? linker := bind "debug" "enabled" debug_enabled linker in
  let? linker := bind "debug" "store_artifact" debug_store_artifact linker in
  Ok linker.

(** [bind_checked_syscalls]. *)
Definition bind_checked_syscalls (m2_native : bool) (linker : Linker) : result Linker string :=
  let? linker := bind_checked "vm" "abort" vm_abort check linker in
  let? linker := bind_checked "vm" "context" vm_context check linker in
  let? linker := bind_checked "network" "base_fee" network_base_fee check linker in
  let? linker := bind_checked "network" "total_fil_circ_supply" network_total_fil_circ_supply check linker in
  let? linker := bind_checked "ipld" "block_open" ipld_block_open check linker in
  let? linker := bind_checked "ipld" "block_create" ipld_block_create check linker in
  let? linker := bind_checked "ipld" "block_read" ipld_block_read check linker in
  let? linker := bind_checked "ipld" "block_stat" ipld_block_stat check linker in
  let? linker := bind_checked "ipld" "block_link" ipld_block_link check linker in
  let? linker := bind_checked "self" "root" sself_root check linker in
  let? linker := bind_checked "self" "set_root" sself_set_root check linker in
  let? linker := bind_checked "self" "current_balance" sself_current_balance check linker in
  let? linker := bind_checked "self" "self_destruct" sself_self_destruct check linker in
  let? linker := bind_checked "actor" "resolve_address" actor_resolve_address check linker in
  let? linker := bind_checked "actor" "get_actor_code_cid" actor_get_actor_code_cid check linker in
  let? linker := bind_checked "actor" "new_actor_address" actor_new_actor_address check linker in
  let? linker := bind_checked "actor" "create_actor" actor_create_actor check linker in
  let? linker := bind_checked "actor" "get_builtin_actor_type" actor_get_builtin_actor_type check linker in
  let? linker := bind_checked "actor" "get_code_cid_for_type" actor_get_code_cid_for_type check linker in
  (* Only wire this syscall when M2 native is enabled. *)
  let? linker :=
    (if m2_native then bind_checked "actor" "install_actor" actor_install_actor check linker
     else Ok linker) in
  let? linker := bind_checked "crypto" "verify_signature" crypto_verify_signature check linker in
  let? linker := bind_checked "crypto" "hash" crypto_hash check linker in
  let? linker := bind_checked "crypto" "verify_seal" crypto_verify_seal check linker in
  let? linker := bind_checked "crypto" "verify_post" crypto_verify_post check linker in
  let? linker := bind_checked "crypto" "compute_unsealed_sector_cid" crypto_compute_unsealed_sector_cid check linker in
  let? linker := bind_checked "crypto" "verify_consensus_fault" crypto_verify_consensus_fault check linker in
  let? linker := bind_checked "crypto" "verify_aggregate_seals" crypto_verify_aggregate_seals check linker in
  let? linker := bind_checked "crypto" "verify_replica_update" crypto_verify_replica_update check linker in
  let? linker := bind_checked "crypto" "batch_verify_seals" crypto_batch_verify_seals check linker in
  let? linker := bind_checked "rand" "get_chain_randomness" rand_get_chain_randomness check linker in
  let? linker := bind_checked "rand" "get_beacon_randomness" rand_get_beacon_randomness check linker in
  let? linker := bind_checked "gas" "charge" gas_charge_gas check linker in
  let? linker := bind_checked "send" "send" send_send check linker in
  let? linker := bind_checked "debug" "log" debug_log check linker in
  let? linker := bind_checked "debug" "enabled" debug_enabled check linker in
  let? linker := bind_checked "debug" "store_artifact" debug_store_artifact check linker in
  Ok linker.

(** The (module, function) names a table leaves defined in a fresh linker. *)
Definition names_of (r : result Linker string) : list (string * string) :=
  match r with Ok l => map entry_name l | Err _ => [] end.

(** The checked flavour of an unchecked entry: the same name and handler,
    wrapped with [check]. *)
Definition wrap_checked (e : string * string * Bound) : string * string * Bound :=
  match e with
  | (m, f, Unchecked h) => (m, f, Checked h check)
  | other => other
  end.

(** The per-capability binding impls, [impl Bind<K, Debug> for K] and its
    siblings: each binds the syscalls of one module. *)
Definition bind_debug (linker : Linker) : result Linker string :=
  let? linker := bind "debug" "log" debug_log linker in
  let? linker := bind "debug" "enabled" debug_enabled linker in
  let? linker := bind "debug" "store_artifact" debug_store_artifact linker in
  Ok linker.

Definition bind_send (linker : Linker) : result Linker string :=
  let? linker := bind "send" "send" send_send linker in
  Ok linker.

Definition bind_rand (linker : Linker) : result Linker string :=
  let? linker := bind "rand" "get_chain_randomness" rand_get_chain_randomness linker in
  let? linker := bind "rand" "get_beacon_randomness" rand_get_beacon_randomness linker in
  Ok linker.

(** The entries of a linker under one module name. *)
Definition module_entries (module : string) (l : Linker) : Linker :=
  filter (fun e => let '(m, _) := entry_name e in String.eqb m module) l.

End Binding.

(** ** A recording kernel: every capability call leaves an event *)

Inductive KernelEvent :=
| EvCharge (name : string) (milligas : Z)
| EvLog (msg : string)
| EvStoreArtifact (name : string) (data : list byte)
| EvTickets (pers round : Z) (entropy : list byte)
| EvBeacon (pers round : Z) (entropy : list byte)
| EvSend (recipient : Address) (method params value : Z).

Record RecKernel := {
  rk_avail : Z;
  rk_debug : bool;
  rk_events : list KernelEvent
}.

Definition rk_record (ev : KernelEvent) (k : RecKernel) : RecKernel :=
  {| rk_avail := rk_avail k; rk_debug := rk_debug k; rk_events := rk_events k ++ [ev] |}.

#[global] Instance RecKernel_GasOps : GasOps RecKernel := {
  gas_available k := from_milligas (rk_avail k);
  charge_gas name g k :=
    (Ok tt, {| rk_avail := rk_avail k - as_milligas g; rk_debug := rk_debug k;
               rk_events := rk_events k ++ [EvCharge name (as_milligas g)] |})
}.

#[global] Instance RecKernel_DebugOps : DebugOps RecKernel := {
  debug_enabled := rk_debug;
  kernel_log msg := rk_record (EvLog msg);
  kernel_store_artifact name data k := (Ok tt, rk_record (EvStoreArtifact name data) k)
}.

#[global] Instance RecKernel_RandomnessOps : RandomnessOps RecKernel := {
  get_randomness_from_tickets pers round e k :=
    (Ok (repeat x2a 32), rk_record (EvTickets pers round e) k);
  get_randomness_from_beacon pers round e k :=
    (Ok (repeat x2b 32), rk_record (EvBeacon pers round e) k)
}.

#[global] Instance RecKernel_SendOps : SendOps RecKernel := {
  kernel_send to method params value k :=
    (Ok (Return 7 {| codec := Validator.DAG_CBOR; size := 3 |}),
     rk_record (EvSend to method params value) k)
}.

(** A kernel with a gas limit: a charge above the available gas is refused
    with [OutOfGas]. *)
Definition OutOfGasKernel_GasOps : GasOps RecKernel := {|
  gas_available k := from_milligas (rk_avail k);
  charge_gas name g k :=
    if as_milligas g <=? rk_avail k
    then (Ok tt, {| rk_avail := rk_avail k - as_milligas g; rk_debug := rk_debug k;
                    rk_events := rk_events k ++ [EvCharge name (as_milligas g)] |})
    else (Err OutOfGas, k)
|}.

Definition rk0 (debug : bool) : RecKernel :=
  {| rk_avail := 1000; rk_debug := debug; rk_events := [] |}.

Definition gas_store (last register : Z) : Store RecKernel :=
  {| store_data := {| kernel := rk0 true; last_error := None;
                      last_milligas_available := last; memory := [] |};
     avail_gas_global := {| global_mutability := Var; global_value := I64 register |} |}.

Definition ctx0 (debug : bool) (mem : Memory) : Context RecKernel :=
  {| ctx_kernel := rk0 debug; ctx_memory := mem |}.

(** A buffer argument that does not fit in memory. *)
Definition out_of_range (m : Memory) (off len : N) : Prop :=
  (N.of_nat (List.length m) < off + len)%N.

Definition some_address (bs : list byte) : result Address ExecutionError :=
  Ok (Addr bs).

(** ** Sanity checks on small inputs *)

Example charge_for_exec_example :
  fst (charge_for_exec (gas_store 1000 400)) = Ok tt /\
  rk_events (kernel (store_data (snd (charge_for_exec (gas_store 1000 400)))))
    = [EvCharge "wasm_exec" 600].
Proof. split; reflexivity. Qed.

Example log_example :
  Debug.log (ctx0 true [x68; x69]) 0 2 =
    (Ok tt, {| ctx_kernel := rk_record (EvLog "hi") (rk0 true);
               ctx_memory := [x68; x69] |}).
Proof. reflexivity. Qed.

Example utf8_examples :
  from_utf8 [xe2; x82; xac] <> None /\ from_utf8 [xc0; x80] = None /\
  from_utf8 [xed; xa0; x80] = None /\ from_utf8 [xf4; x90; x80; x80] = None.
Proof. repeat split; vm_compute; congruence. Qed.

Example token_value_example : Send.token_value 1 5 = 2 ^ 64 + 5.
Proof. reflexivity. Qed.

(** * Properties *)

(** ** Gas protocol *)

(** What [charge_for_exec] charges, for any kernel and any i64 register value:
    the [i64::saturating_sub] of the shadow value and the register, and the
    shadow value becomes the register's. *)
Lemma charge_for_exec_amount {K} `{GasOps K} (s : Store K) (z : Z) :
  global_get (avail_gas_global s) = I64 z ->
  charge_for_exec s =
    let d := set_last_milligas z (store_data s) in
    match charge_gas "wasm_exec"
            (from_milligas (i64_saturating_sub (last_milligas_available (store_data s)) z))
            (kernel d) with
    | (Err e, k) => (Err (from_error_as_fatal e), with_data (set_kernel k d) s)
    | (Ok tt, k) => (Ok tt, with_data (set_kernel k d) s)
    end.
Proof.
  intros Hz. unfold charge_for_exec. rewrite Hz. simpl.
  destruct (charge_gas _ _ _) as [[[]|e] k]; reflexivity.
Qed.

(** The saturation of [i64::saturating_sub] is at the ends of the [i64] range,
    not at zero: in range it is the plain difference. *)
Lemma i64_saturating_sub_in_range (a b : Z) :
  i64_min <= a - b <= i64_max -> i64_saturating_sub a b = a - b.
Proof.
  intros Hr. unfold i64_saturating_sub.
  destruct (a - b <? i64_min) eqn:E1; [apply Z.ltb_lt in E1; lia|].
  destruct (i64_max <? a - b) eqn:E2; [apply Z.ltb_lt in E2; lia|].
  reflexivity.
Qed.

(** C1 (code_bug): when the register read back (150) is above
    [last_milligas_available] (100), [charge_for_exec] charges the kernel
    -50 milligas: the delta is negative, not saturated at zero.  The shadow
    value is updated to 150. *)
Theorem charge_for_exec_negative_delta :
  charge_for_exec (gas_store 100 150) =
    (Ok tt,
     {| store_data :=
          {| kernel := {| rk_avail := 1050; rk_debug := true;
                          rk_events := [EvCharge "wasm_exec" (-50)] |};
             last_error := None; last_milligas_available := 150; memory := [] |};
        avail_gas_global := {| global_mutability := Var; global_value := I64 150 |} |}).
Proof. reflexivity. Qed.

(** C7: [update_gas_available] on the gas register (a mutable i64 global)
    sets the register to the kernel's available milligas and records the same
    value as [last_milligas_available], so register and shadow agree; the
    kernel is left as it was. *)
Theorem update_gas_available_syncs {K} `{GasOps K} (s : Store K) (z : Z) :
  global_mutability (avail_gas_global s) = Var ->
  global_value (avail_gas_global s) = I64 z ->
  exists s',
    update_gas_available s = (Ok tt, s') /\
    global_get (avail_gas_global s') = I64 (as_milligas (gas_available (kernel (store_data s)))) /\
    last_milligas_available (store_data s') = as_milligas (gas_available (kernel (store_data s))) /\
    val_i64 (global_get (avail_gas_global s')) = Some (last_milligas_available (store_data s')) /\
    kernel (store_data s') = kernel (store_data s).
Proof.
  intros Hm Hv. unfold update_gas_available, global_set. rewrite Hm, Hv. simpl.
  eexists; repeat split.
Qed.

Lemma update_gas_available_syncs_witness :
  global_mutability (avail_gas_global (gas_store 5 9)) = Var /\
  global_value (avail_gas_global (gas_store 5 9)) = I64 9 /\
  exists s',
    update_gas_available (gas_store 5 9) = (Ok tt, s') /\
    global_get (avail_gas_global s') = I64 1000 /\
    last_milligas_available (store_data s') = 1000 /\
    val_i64 (global_get (avail_gas_global s')) = Some (last_milligas_available (store_data s')) /\
    kernel (store_data s') = rk0 true.
Proof.
  split; [reflexivity|]. split; [reflexivity|].
  exact (update_gas_available_syncs (gas_store 5 9) 9 eq_refl eq_refl).
Defined.

(** ** send.send *)

Lemma land_high_low (hi lo : Z) :
  0 <= lo < 2 ^ 64 -> Z.land (hi * 2 ^ 64) lo = 0.
Proof.
  intros Hlo. apply Z.bits_inj'. intros i Hi.
  rewrite Z.land_spec, Z.bits_0.
  destruct (Z.lt_ge_cases i 64) as [Hlt|Hge].
  - rewrite Z.mul_pow2_bits_low by lia. reflexivity.
  - rewrite <- (Z.mod_small lo (2 ^ 64)) by lia.
    rewrite Z.mod_pow2_bits_high by lia. apply andb_false_r.
Qed.

Lemma token_value_eq (hi lo : Z) :
  0 <= hi < 2 ^ 64 -> 0 <= lo < 2 ^ 64 ->
  Send.token_value hi lo = hi * 2 ^ 64 + lo.
Proof.
  intros Hhi Hlo. unfold Send.token_value.
  rewrite Z.shiftl_mul_pow2 by lia.
  rewrite Z.mod_small by (split; [lia|]; replace (2 ^ 128) with (2 ^ 64 * 2 ^ 64) by reflexivity; nia).
  rewrite <- Z.add_lor_land, land_high_low by assumption. lia.
Qed.

(** C8: once the recipient is read, [send.send] turns every result of the
    kernel's send into an ordinary result: [Return(id, stat)] gives exit code
    OK with that id, codec and size; [Abort(code)] gives that code with id,
    codec and size zero; a kernel error is passed back as the error.  The value
    handed to the kernel is [value_hi * 2^64 + value_lo]. *)
Theorem send_maps_kernel_result {K} `{SendOps K}
    (address_from_bytes : list byte -> result Address ExecutionError)
    (context : Context K) (recipient_off recipient_len : N)
    (method params_id value_hi value_lo : Z) (recipient : Address) :
  0 <= value_hi < 2 ^ 64 -> 0 <= value_lo < 2 ^ 64 ->
  Send.read_address address_from_bytes (ctx_memory context) recipient_off recipient_len
    = Ok recipient ->
  Send.send address_from_bytes context recipient_off recipient_len
      method params_id value_hi value_lo =
    match kernel_send recipient method params_id (value_hi * 2 ^ 64 + value_lo)
            (ctx_kernel context) with
    | (Ok (Return id stat), k) =>
        (Ok {| exit_code := exit_code_ok; return_id := id;
               return_codec := codec stat; return_size := size stat |},
         with_kernel k context)
    | (Ok (SendAbort code), k) =>
        (Ok {| exit_code := code; return_id := 0; return_codec := 0; return_size := 0 |},
         with_kernel k context)
    | (Err e, k) => (Err e, with_kernel k context)
    end.
Proof.
  intros Hhi Hlo Hread. unfold Send.send. rewrite Hread.
  rewrite token_value_eq by assumption.
  destruct (kernel_send _ _ _ _ _) as [[[id stat|code]|e] k]; reflexivity.
Qed.

Lemma send_maps_kernel_result_witness :
  Send.read_address some_address (ctx_memory (ctx0 true [x01; x02])) 0 2
    = Ok (Addr [x01; x02]) /\
  Send.send some_address (ctx0 true [x01; x02]) 0 2 3 4 1 5 =
    (Ok {| exit_code := 0; return_id := 7; return_codec := Validator.DAG_CBOR;
           return_size := 3 |},
     with_kernel (rk_record (EvSend (Addr [x01; x02]) 3 4 (2 ^ 64 + 5)) (rk0 true))
       (ctx0 true [x01; x02])).
Proof.
  split; [reflexivity|].
  rewrite (send_maps_kernel_result some_address (ctx0 true [x01; x02]) 0 2 3 4 1 5
             (Addr [x01; x02])); [reflexivity | lia | lia | reflexivity].
Defined.

(** ** Buffer arguments and the debug no-op *)

Lemma try_slice_out_of_range (m : Memory) (off len : N) :
  out_of_range m off len ->
  try_slice m off len = Err (Syscall IllegalArgument "buffer out of bounds").
Proof.
  unfold out_of_range, try_slice. intros Hr.
  destruct (N.leb_spec (off + len) (N.of_nat (List.length m))); [lia | reflexivity].
Qed.

Definition illegal_buffer : ExecutionError :=
  Syscall IllegalArgument "buffer out of bounds".

(** C2 (counterexample): with debugging disabled, [debug.log] given a buffer
    (100, 100) that lies outside an empty memory succeeds instead of failing
    with IllegalArgument. *)
Lemma debug_log_disabled_out_of_range_ok :
  out_of_range (ctx_memory (ctx0 false [])) 100 100 /\
  Debug.log (ctx0 false []) 100 100 = (Ok tt, ctx0 false []).
Proof. split; [unfold out_of_range; simpl; lia | reflexivity]. Qed.

(** C2 (amended): for any kernel, an out-of-range buffer argument makes
    [rand.get_chain_randomness], [rand.get_beacon_randomness] and [send.send]
    fail with IllegalArgument, and [debug.log] and [debug.store_artifact] too
    when debugging is enabled; in each case the context comes back unchanged:
    no kernel capability has run and memory is untouched.  With debugging
    disabled, [debug.log] and [debug.store_artifact] succeed for every buffer
    argument, in range or not, without checking it. *)
Theorem buffer_out_of_range_rejected {K} `{DebugOps K} `{RandomnessOps K} `{SendOps K}
    (address_from_bytes : list byte -> result Address ExecutionError)
    (context : Context K) :
  (forall msg_off msg_len,
     debug_enabled (ctx_kernel context) = true ->
     out_of_range (ctx_memory context) msg_off msg_len ->
     Debug.log context msg_off msg_len = (Err illegal_buffer, context)) /\
  (forall name_off name_len data_off data_len,
     debug_enabled (ctx_kernel context) = true ->
     out_of_range (ctx_memory context) name_off name_len \/
     out_of_range (ctx_memory context) data_off data_len ->
     Debug.store_artifact context name_off name_len data_off data_len
       = (Err illegal_buffer, context)) /\
  (forall pers round entropy_off entropy_len,
     out_of_range (ctx_memory context) entropy_off entropy_len ->
     Rand.get_chain_randomness context pers round entropy_off entropy_len
       = (Err illegal_buffer, context)) /\
  (forall pers round entropy_off entropy_len,
     out_of_range (ctx_memory context) entropy_off entropy_len ->
     Rand.get_beacon_randomness context pers round entropy_off entropy_len
       = (Err illegal_buffer, context)) /\
  (forall recipient_off recipient_len method params_id value_hi value_lo,
     out_of_range (ctx_memory context) recipient_off recipient_len ->
     Send.send address_from_bytes context recipient_off recipient_len
       method params_id value_hi value_lo = (Err illegal_buffer, context)) /\
  (debug_enabled (ctx_kernel context) = false ->
   (forall msg_off msg_len, Debug.log context msg_off msg_len = (Ok tt, context)) /\
   (forall name_off name_len data_off data_len,
      Debug.store_artifact context name_off name_len data_off data_len = (Ok tt, context))).
Proof.
  split; [|split; [|split; [|split; [|split]]]].
  - intros off len Hen Hr. unfold Debug.log. rewrite Hen, try_slice_out_of_range by exact Hr.
    reflexivity.
  - intros noff nlen doff dlen Hen [Hr|Hr]; unfold Debug.store_artifact; rewrite Hen; simpl.
    + destruct (try_slice _ doff dlen) as [data|e] eqn:Hd.
      * rewrite try_slice_out_of_range by exact Hr. reflexivity.
      * unfold try_slice in Hd. destruct (_ <=? _)%N; inversion Hd. reflexivity.
    + rewrite try_slice_out_of_range by exact Hr. reflexivity.
  - intros pers round off len Hr. unfold Rand.get_chain_randomness.
    rewrite try_slice_out_of_range by exact Hr. reflexivity.
  - intros pers round off len Hr. unfold Rand.get_beacon_randomness.
    rewrite try_slice_out_of_range by exact Hr. reflexivity.
  - intros roff rlen method pid hi lo Hr. unfold Send.send, Send.read_address.
    rewrite try_slice_out_of_range by exact Hr. reflexivity.
  - intros Hoff. split; intros; unfold Debug.log, Debug.store_artifact; rewrite Hoff;
      reflexivity.
Qed.

Lemma buffer_out_of_range_rejected_witness :
  out_of_range [x00; x00] 1 2 /\
  Rand.get_chain_randomness (ctx0 true [x00; x00]) 1 10 1 2
    = (Err illegal_buffer, ctx0 true [x00; x00]) /\
  Debug.store_artifact (ctx0 true [x00; x00]) 0 1 1 2
    = (Err illegal_buffer, ctx0 true [x00; x00]) /\
  Debug.store_artifact (ctx0 false [x00; x00]) 0 1 1 2
    = (Ok tt, ctx0 false [x00; x00]).
Proof.
  assert (Hr : out_of_range [x00; x00] 1 2) by (unfold out_of_range; simpl; lia).
  destruct (buffer_out_of_range_rejected some_address (ctx0 true [x00; x00]))
    as (_ & Hstore & Hchain & _ & _ & _).
  destruct (buffer_out_of_range_rejected some_address (ctx0 false [x00; x00]))
    as (_ & _ & _ & _ & _ & Hoff).
  split; [exact Hr|]. split; [|split].
  - exact (Hchain 1 10 1%N 2%N Hr).
  - exact (Hstore 0%N 1%N 1%N 2%N eq_refl (or_intror Hr)).
  - exact (proj2 (Hoff eq_refl) 0%N 1%N 1%N 2%N).
Defined.

(** C9: with debugging disabled, [debug.log] and [debug.store_artifact]
    succeed at once for every offset and length, in range or not, whatever the
    memory holds, and leave kernel and memory as they were. *)
Theorem debug_disabled_noop {K} `{DebugOps K} (context : Context K) :
  debug_enabled (ctx_kernel context) = false ->
  (forall msg_off msg_len, Debug.log context msg_off msg_len = (Ok tt, context)) /\
  (forall name_off name_len data_off data_len,
     Debug.store_artifact context name_off name_len data_off data_len = (Ok tt, context)).
Proof.
  intros Hoff. split; intros; unfold Debug.log, Debug.store_artifact; rewrite Hoff; reflexivity.
Qed.

Lemma debug_disabled_noop_witness :
  debug_enabled (ctx_kernel (ctx0 false [x01])) = false /\
  out_of_range [x01] 5 7 /\
  Debug.log (ctx0 false [x01]) 5 7 = (Ok tt, ctx0 false [x01]) /\
  Debug.store_artifact (ctx0 false [x01]) 5 7 0 100 = (Ok tt, ctx0 false [x01]).
Proof.
  destruct (@debug_disabled_noop RecKernel RecKernel_DebugOps (ctx0 false [x01]) eq_refl)
    as [Hlog Hstore].
  split; [reflexivity|]. split; [unfold out_of_range; simpl; lia|].
  split; [apply Hlog | apply Hstore].
Defined.

(** ** validate_message *)

Module ValidatorFacts.
Import Validator.

Definition msg0 : Message :=
  {| msg_from := Addr [x01]; msg_sequence := 0; msg_params := [x09] |}.

Definition frame0 : Frame :=
  {| frame_source := 100; frame_method := 2; frame_code := 16;
     frame_message := "bad signature" |}.

Definition bt0 : Backtrace := {| frames := [frame0]; cause := None |}.

Definition lookup_found (a : Address) : result (option Z) AnyError := Ok (Some 100).

(** Decimal digits of [n], prepended to [acc]. *)
Fixpoint decimal_digits (fuel n : nat) (acc : string) : string :=
  match fuel with
  | O => acc
  | S fuel =>
      let acc := String (Ascii.ascii_of_nat (48 + n mod 10)) acc in
      if Nat.ltb n 10 then acc else decimal_digits fuel (n / 10) acc
  end.

(** An address rendering that prints the payload bytes in decimal after "f0". *)
Definition show_address (a : Address) : string :=
  match a with
  | Addr bs =>
      ("f0" ++ String.concat "" (map (fun b => decimal_digits 3 (Byte.to_nat b) "") bs))%string
  end.

Definition marshal_concat (p : ValidateParams) : result (list byte) AnyError :=
  Ok (signature p ++ message_payload p).

(** A call manager whose validation entrypoint ends as [outcome]. *)
Definition call_ending (outcome : CallOutcome)
    (gas_limit : Z) (origin : Z * Address) (seq : Z) (params : Block) (id : Z) : CallOutcome :=
  outcome.

(** A one-byte GasSpec decoder. *)
Definition decode_byte (bs : list byte) : result nat AnyError :=
  match bs with [b] => Ok (Byte.to_nat b) | _ => Err (anyhow "not a GasSpec") end.

(** C3 (code_bug): the validation entrypoint of actor 100 aborts with exit
    code 16 and backtrace [bt0].  [validate_message] builds
    [failure_info = Some (MessageBacktrace bt0)] and then drops it: what it
    returns is the fixed error "actor failed to validate with TODO", which
    does not carry the backtrace (the same error comes back with an empty
    backtrace). *)
Theorem validate_message_failure_drops_backtrace :
  failure_info (Err tt) bt0 = Some (MessageBacktrace bt0) /\
  validate_message nat lookup_found marshal_concat
      (call_ending (Ok (InvFailure 16), 10, bt0)) decode_byte show_address msg0 [x05]
    = Err (anyhow "actor failed to validate with TODO") /\
  validate_message nat lookup_found marshal_concat
      (call_ending (Ok (InvFailure 16), 10, bt_clear bt0)) decode_byte show_address msg0 [x05]
    = Err (anyhow "actor failed to validate with TODO").
Proof. repeat split. Qed.

(** C4: when the validation entrypoint returns successfully, the backtrace is
    cleared (so no failure information is produced); if the return payload
    decodes as a GasSpec [gs], [validate_message] returns [gs], and if it does
    not decode, [validate_message] returns its own validation error "failed
    to unmarshall return data from validate", not the decoder's error nor an
    error of the host. *)
Theorem validate_message_success {GasSpec : Type}
    (lookup_id : Address -> result (option Z) AnyError)
    (marshal_cbor : ValidateParams -> result (list byte) AnyError)
    (call_validate : Z -> Z * Address -> Z -> Block -> Z -> CallOutcome)
    (deserialize : list byte -> result GasSpec AnyError)
    (address_to_string : Address -> string)
    (msg : Message) (sig : list byte) (sender_id : Z) (params : list byte)
    (return_value : option Block) (gas_used : Z) (backtrace : Backtrace) :
  lookup_id (msg_from msg) = Ok (Some sender_id) ->
  marshal_cbor {| signature := sig; message_payload := msg_params msg |} = Ok params ->
  call_validate VALIDATION_GAS_LIMIT (sender_id, msg_from msg) (msg_sequence msg)
    {| blk_codec := DAG_CBOR; blk_data := params |} sender_id
    = (Ok (InvReturn return_value), gas_used, backtrace) ->
  let return_data := match return_value with Some blk => blk_data blk | None => [] end in
  (exists cleared,
     validate_result (Ok (InvReturn return_value)) backtrace = Ok (Ok return_data, cleared) /\
     bt_is_empty cleared = true /\
     failure_info (Ok return_data) cleared = None) /\
  (forall gs, deserialize return_data = Ok gs ->
     validate_message GasSpec lookup_id marshal_cbor call_validate deserialize address_to_string msg sig = Ok gs) /\
  (forall e, deserialize return_data = Err e ->
     validate_message GasSpec lookup_id marshal_cbor call_validate deserialize address_to_string msg sig
       = Err (anyhow "failed to unmarshall return data from validate")).
Proof.
  intros Hlook Hmarshal Hcall return_data.
  assert (Hrun : validate_message GasSpec lookup_id marshal_cbor call_validate deserialize address_to_string msg sig
                 = map_err (fun _ => anyhow "failed to unmarshall return data from validate")
                     (deserialize return_data)).
  { unfold validate_message, run_validation. rewrite Hlook, Hmarshal, Hcall. reflexivity. }
  split; [|split].
  - eexists. repeat split.
  - intros gs Hgs. rewrite Hrun, Hgs. reflexivity.
  - intros e He. rewrite Hrun, He. reflexivity.
Qed.

Lemma validate_message_success_witness :
  lookup_found (msg_from msg0) = Ok (Some 100) /\
  validate_message nat lookup_found marshal_concat
    (call_ending (Ok (InvReturn (Some {| blk_codec := DAG_CBOR; blk_data := [x03] |})), 10, bt0))
    decode_byte show_address msg0 [x05] = Ok 3%nat /\
  validate_message nat lookup_found marshal_concat
    (call_ending (Ok (InvReturn None), 10, bt0))
    decode_byte show_address msg0 [x05] = Err (anyhow "failed to unmarshall return data from validate").
Proof.
  split; [reflexivity|]. split.
  - destruct (validate_message_success lookup_found marshal_concat
                (call_ending (Ok (InvReturn (Some {| blk_codec := DAG_CBOR; blk_data := [x03] |})),
                              10, bt0))
                decode_byte show_address msg0 [x05] 100 [x05; x09] _ 10 bt0 eq_refl eq_refl eq_refl)
      as (_ & Hok & _).
    exact (Hok 3%nat eq_refl).
  - destruct (validate_message_success lookup_found marshal_concat
                (call_ending (Ok (InvReturn None), 10, bt0))
                decode_byte show_address msg0 [x05] 100 [x05; x09] None 10 bt0 eq_refl eq_refl eq_refl)
      as (_ & _ & Herr).
    exact (Herr (anyhow "not a GasSpec") eq_refl).
Defined.

End ValidatorFacts.

(** ** The binding tables *)

Module BindingFacts.
Import Binding.

(** C5: with or without the [m2-native] feature, both tables bind into a
    fresh linker without error, and they define the same (module, function)
    names in the same order; each checked entry is the unchecked one with
    the same handler wrapped with [check]. *)
Theorem bind_tables_same_names (m2_native : bool) :
  match bind_syscalls m2_native [], bind_checked_syscalls m2_native [] with
  | Ok full, Ok restricted =>
      map entry_name full = map entry_name restricted /\
      map wrap_checked full = restricted
  | _, _ => False
  end.
Proof. destruct m2_native; vm_compute; split; reflexivity. Qed.

Definition crypto_names (names : list (string * string)) : list string :=
  map snd (filter (fun '(m, _) => String.eqb m "crypto") names).

(** C6 (counterexample): [crypto.recover_secp_public_key] is not among the
    names [bind_syscalls] defines, with or without [m2-native]. *)
Lemma recover_secp_public_key_unbound :
  ~ In ("crypto", "recover_secp_public_key")%string (names_of (bind_syscalls false [])) /\
  ~ In ("crypto", "recover_secp_public_key")%string (names_of (bind_syscalls true [])).
Proof.
  split; vm_compute; intros Hin; repeat (destruct Hin as [Hin|Hin]; [discriminate|]); exact Hin.
Qed.

(** C6 (amended): the crypto functions [bind_syscalls] defines are exactly
    verify_signature, hash, verify_seal, verify_post,
    compute_unsealed_sector_cid, verify_consensus_fault,
    verify_aggregate_seals, verify_replica_update and batch_verify_seals, and
    [crypto.recover_secp_public_key] is bound neither by [bind_syscalls] nor
    by [bind_checked_syscalls]. *)
Theorem bind_syscalls_crypto_surface (m2_native : bool) :
  is_ok (bind_syscalls m2_native []) = true /\
  crypto_names (names_of (bind_syscalls m2_native [])) =
    ["verify_signature"; "hash"; "verify_seal"; "verify_post";
     "compute_unsealed_sector_cid"; "verify_consensus_fault";
     "verify_aggregate_seals"; "verify_replica_update"; "batch_verify_seals"]%string /\
  is_ok (bind_checked_syscalls m2_native []) = true /\
  ~ In ("crypto", "recover_secp_public_key")%string (names_of (bind_syscalls m2_native [])) /\
  ~ In ("crypto", "recover_secp_public_key")%string
      (names_of (bind_checked_syscalls m2_native [])).
Proof.
  destruct m2_native; vm_compute;
    (split; [reflexivity|]); (split; [reflexivity|]); (split; [reflexivity|]);
    split; intros Hin; repeat (destruct Hin as [Hin|Hin]; [discriminate|]); exact Hin.
Qed.

End BindingFacts.

(** * Further properties of the syscall layer *)

(** ** Gas protocol *)

(** After [update_gas_available], if the sandbox lowers the register by [c]
    milligas, [charge_for_exec] charges the kernel exactly [c] under the name
    "wasm_exec" and records the lowered register value as the new shadow. *)
Theorem update_then_charge_exact {K} `{GasOps K} (s : Store K) (z c : Z) :
  global_mutability (avail_gas_global s) = Var ->
  global_value (avail_gas_global s) = I64 z ->
  i64_min <= c <= i64_max ->
  let avail := as_milligas (gas_available (kernel (store_data s))) in
  exists s1,
    update_gas_available s = (Ok tt, s1) /\
    let s2 := with_global {| global_mutability := Var; global_value := I64 (avail - c) |} s1 in
    let d := set_last_milligas (avail - c) (store_data s2) in
    charge_for_exec s2 =
      match charge_gas "wasm_exec" (from_milligas c) (kernel (store_data s)) with
      | (Err e, k) => (Err (from_error_as_fatal e), with_data (set_kernel k d) s2)
      | (Ok tt, k) => (Ok tt, with_data (set_kernel k d) s2)
      end.
Proof.
  intros Hm Hv Hc avail.
  destruct (update_gas_available_syncs s z Hm Hv) as (s1 & Hup & _ & Hlast & _ & Hk).
  exists s1. split; [exact Hup|]. intros s2 d.
  rewrite (charge_for_exec_amount s2 (avail - c)) by reflexivity.
  assert (Hd : last_milligas_available (store_data s2) - (avail - c) = c)
    by (unfold s2; simpl; fold avail in Hlast; rewrite Hlast; lia).
  rewrite i64_saturating_sub_in_range by lia. rewrite Hd.
  cbv zeta.
  assert (Hk2 : kernel (set_last_milligas (avail - c) (store_data s2)) = kernel (store_data s))
    by (unfold s2; simpl; exact Hk).
  rewrite Hk2. reflexivity.
Qed.

Lemma update_then_charge_exact_witness :
  exists s1,
    update_gas_available (gas_store 0 0) = (Ok tt, s1) /\
    fst (charge_for_exec
           (with_global {| global_mutability := Var; global_value := I64 (1000 - 30) |} s1))
      = Ok tt /\
    rk_events (kernel (store_data (snd (charge_for_exec
           (with_global {| global_mutability := Var; global_value := I64 (1000 - 30) |} s1)))))
      = [EvCharge "wasm_exec" 30].
Proof.
  destruct (update_then_charge_exact (gas_store 0 0) 0 30 eq_refl eq_refl
              ltac:(unfold i64_min, i64_max; lia)) as (s1 & Hup & Hch).
  exists s1. split; [exact Hup|]. cbv zeta in Hch.
  change (as_milligas (gas_available (kernel (store_data (gas_store 0 0))))) with 1000 in Hch.
  rewrite Hch. split; reflexivity.
Defined.

(** A gas register that does not hold an i64 makes [charge_for_exec] a fatal
    abort that leaves the store (shadow value and kernel) untouched. *)
Theorem charge_for_exec_non_i64_register {K} `{GasOps K} (s : Store K) :
  val_i64 (global_get (avail_gas_global s)) = None ->
  charge_for_exec s = (Err (AbortFatal "failed to get wasm gas"), s).
Proof. intros Hv. unfold charge_for_exec. rewrite Hv. reflexivity. Qed.

Lemma charge_for_exec_non_i64_register_witness :
  charge_for_exec (with_global {| global_mutability := Var; global_value := I32 3 |}
                     (gas_store 10 10))
    = (Err (AbortFatal "failed to get wasm gas"),
       with_global {| global_mutability := Var; global_value := I32 3 |} (gas_store 10 10)).
Proof. apply charge_for_exec_non_i64_register. reflexivity. Defined.

(** When the register cannot be written (a constant global, or one that does
    not hold an i64), [update_gas_available] is a fatal abort and the store is
    left as it was: [last_milligas_available] is not updated. *)
Theorem update_gas_available_unwritable {K} `{GasOps K} (s : Store K) :
  global_mutability (avail_gas_global s) = Const \/
  val_i64 (global_value (avail_gas_global s)) = None ->
  exists msg, update_gas_available s = (Err (AbortFatal msg), s).
Proof.
  intros Hg. unfold update_gas_available, global_set.
  destruct (avail_gas_global s) as [[|] v]; simpl in *.
  - eexists; reflexivity.
  - destruct Hg as [Hg|Hg]; [discriminate|].
    destruct v; simpl in Hg; try discriminate; eexists; reflexivity.
Qed.

Lemma update_gas_available_unwritable_witness :
  exists msg,
    update_gas_available
      (with_global {| global_mutability := Const; global_value := I64 0 |} (gas_store 4 4))
    = (Err (AbortFatal msg),
       with_global {| global_mutability := Const; global_value := I64 0 |} (gas_store 4 4)).
Proof. apply update_gas_available_unwritable. left. reflexivity. Defined.

(** When the kernel refuses the charge, [charge_for_exec] reports the error
    as an abort ([OutOfGas] stays [OutOfGas], any other error becomes fatal),
    but the shadow value has already moved to the register's value. *)
Theorem charge_for_exec_charge_refused {K} `{GasOps K} (s : Store K) (z : Z)
    (e : ExecutionError) (k : K) :
  global_get (avail_gas_global s) = I64 z ->
  charge_gas "wasm_exec"
    (from_milligas (i64_saturating_sub (last_milligas_available (store_data s)) z))
    (kernel (store_data s)) = (Err e, k) ->
  exists s',
    charge_for_exec s = (Err (from_error_as_fatal e), s') /\
    last_milligas_available (store_data s') = z /\
    kernel (store_data s') = k /\
    avail_gas_global s' = avail_gas_global s.
Proof.
  intros Hz Hch. rewrite (charge_for_exec_amount s z Hz). simpl.
  rewrite Hch. eexists; repeat split.
Qed.

Lemma charge_for_exec_charge_refused_witness :
  exists s',
    @charge_for_exec RecKernel OutOfGasKernel_GasOps (gas_store 5000 0)
      = (Err AbortOutOfGas, s') /\
    last_milligas_available (store_data s') = 0.
Proof.
  destruct (@charge_for_exec_charge_refused RecKernel OutOfGasKernel_GasOps
              (gas_store 5000 0) 0 OutOfGas (rk0 true) eq_refl eq_refl)
    as (s' & Hc & Hl & _ & _).
  exists s'. split; [exact Hc | exact Hl].
Defined.

(** ** Buffers in range *)

Lemma try_slice_middle (pre buf post : list byte) :
  try_slice (pre ++ buf ++ post) (N.of_nat (List.length pre)) (N.of_nat (List.length buf))
    = Ok buf.
Proof.
  unfold try_slice.
  replace (N.of_nat (List.length pre) + N.of_nat (List.length buf) <=?
           N.of_nat (List.length (pre ++ buf ++ post)))%N with true.
  2:{ symmetry. apply N.leb_le. rewrite !length_app. lia. }
  rewrite !Nat2N.id, skipn_app, skipn_all, Nat.sub_diag, skipn_O. simpl.
  rewrite firstn_app, firstn_all, Nat.sub_diag, firstn_O, app_nil_r. reflexivity.
Qed.

(** With debugging enabled, [debug.log] on the bytes [msg] found at the given
    offset logs exactly those bytes as a string when they are valid UTF-8, and
    fails with IllegalArgument without logging anything when they are not. *)
Theorem debug_log_in_range {K} `{DebugOps K} (k : K) (pre msg post : list byte) :
  debug_enabled k = true ->
  let context := {| ctx_kernel := k; ctx_memory := pre ++ msg ++ post |} in
  Debug.log context (N.of_nat (List.length pre)) (N.of_nat (List.length msg)) =
    if utf8_valid (map Byte.to_N msg)
    then (Ok tt, with_kernel (kernel_log (string_of_bytes msg) k) context)
    else (Err (Syscall IllegalArgument "invalid utf8"), context).
Proof.
  intros Hen context. unfold Debug.log. simpl. rewrite Hen. simpl.
  rewrite try_slice_middle. unfold from_utf8.
  destruct (utf8_valid (map Byte.to_N msg)); reflexivity.
Qed.

Lemma debug_log_in_range_witness :
  Debug.log (ctx0 true ([x00] ++ [x68; x69] ++ [x00])) 1 2 =
    (Ok tt, with_kernel (rk_record (EvLog "hi") (rk0 true))
              (ctx0 true ([x00] ++ [x68; x69] ++ [x00]))) /\
  Debug.log (ctx0 true ([x00] ++ [xff] ++ [])) 1 1 =
    (Err (Syscall IllegalArgument "invalid utf8"), ctx0 true ([x00] ++ [xff] ++ [])).
Proof.
  split.
  - exact (debug_log_in_range (rk0 true) [x00] [x68; x69] [x00] eq_refl).
  - exact (debug_log_in_range (rk0 true) [x00] [xff] [] eq_refl).
Defined.

(** With debugging enabled and both buffers in range, [debug.store_artifact]
    hands the kernel the name (as a string) and the data buffer and returns
    the kernel's result; a name that is not valid UTF-8 fails with
    IllegalArgument and the kernel is not called. *)
Theorem debug_store_artifact_in_range {K} `{DebugOps K} (context : Context K)
    (name_off name_len data_off data_len : N) (name data : list byte) :
  debug_enabled (ctx_kernel context) = true ->
  try_slice (ctx_memory context) name_off name_len = Ok name ->
  try_slice (ctx_memory context) data_off data_len = Ok data ->
  Debug.store_artifact context name_off name_len data_off data_len =
    match from_utf8 name with
    | None => (Err (Syscall IllegalArgument "invalid utf8"), context)
    | Some name =>
        let (r, k) := kernel_store_artifact name data (ctx_kernel context) in
        (r, with_kernel k context)
    end.
Proof.
  intros Hen Hn Hd. unfold Debug.store_artifact. rewrite Hen. simpl.
  rewrite Hd, Hn. destruct (from_utf8 name); [|reflexivity].
  destruct (kernel_store_artifact _ _ _) as [[[]|e] k]; reflexivity.
Qed.

Lemma debug_store_artifact_in_range_witness :
  Debug.store_artifact (ctx0 true [x61; x07; x08]) 0 1 1 2 =
    (Ok tt, with_kernel (rk_record (EvStoreArtifact "a" [x07; x08]) (rk0 true))
              (ctx0 true [x61; x07; x08])).
Proof.
  rewrite (@debug_store_artifact_in_range RecKernel RecKernel_DebugOps (ctx0 true [x61; x07; x08]) 0 1 1 2 [x61] [x07; x08]
             eq_refl eq_refl eq_refl).
  reflexivity.
Defined.

(** [rand.get_chain_randomness] and [rand.get_beacon_randomness] pass the
    kernel exactly the entropy bytes found at the given offset, together with
    the tag and round, and return the kernel's answer (bytes or error) as it
    is. *)
Theorem randomness_passes_entropy {K} `{RandomnessOps K} (k : K)
    (pre entropy post : list byte) (pers round : Z) :
  let context := {| ctx_kernel := k; ctx_memory := pre ++ entropy ++ post |} in
  let off := N.of_nat (List.length pre) in
  let len := N.of_nat (List.length entropy) in
  Rand.get_chain_randomness context pers round off len =
    (let (r, k') := get_randomness_from_tickets pers round entropy k in
     (r, with_kernel k' context)) /\
  Rand.get_beacon_randomness context pers round off len =
    (let (r, k') := get_randomness_from_beacon pers round entropy k in
     (r, with_kernel k' context)).
Proof.
  intros context off len. unfold Rand.get_chain_randomness, Rand.get_beacon_randomness.
  simpl. unfold off, len. rewrite try_slice_middle. split; reflexivity.
Qed.

(** [Send::send] with a recipient buffer that is in range but does not decode
    as an address fails with the decoder's error; no message is sent. *)
Theorem send_bad_recipient {K} `{SendOps K}
    (address_from_bytes : list byte -> result Address ExecutionError)
    (context : Context K) (recipient_off recipient_len : N) (bytes : list byte)
    (e : ExecutionError) (method params_id value_hi value_lo : Z) :
  try_slice (ctx_memory context) recipient_off recipient_len = Ok bytes ->
  address_from_bytes bytes = Err e ->
  Send.send address_from_bytes context recipient_off recipient_len
    method params_id value_hi value_lo = (Err e, context).
Proof.
  intros Hs Ha. unfold Send.send, Send.read_address. rewrite Hs, Ha. reflexivity.
Qed.

Definition reject_address (bs : list byte) : result Address ExecutionError :=
  Err (Syscall IllegalArgument "invalid address").

Lemma send_bad_recipient_witness :
  Send.send reject_address (ctx0 true [x01]) 0 1 2 3 0 5 =
    (Err (Syscall IllegalArgument "invalid address"), ctx0 true [x01]).
Proof. exact (send_bad_recipient reject_address (ctx0 true [x01]) 0 1 [x01] _ 2 3 0 5
               eq_refl eq_refl). Defined.

(** The 128-bit token value [send.send] builds from [value_hi] and
    [value_lo] splits back into them: its high 64 bits are [value_hi], its
    low 64 bits [value_lo], and it fits in 128 bits. *)
Theorem token_value_split (value_hi value_lo : Z) :
  0 <= value_hi < 2 ^ 64 -> 0 <= value_lo < 2 ^ 64 ->
  Z.shiftr (Send.token_value value_hi value_lo) 64 = value_hi /\
  Z.land (Send.token_value value_hi value_lo) (Z.ones 64) = value_lo /\
  0 <= Send.token_value value_hi value_lo < 2 ^ 128.
Proof.
  intros Hhi Hlo. rewrite token_value_eq by assumption.
  rewrite Z.shiftr_div_pow2, Z.land_ones by lia.
  repeat split.
  - rewrite Z.div_add_l by lia. rewrite Z.div_small by lia. lia.
  - rewrite Z.add_comm, Z.mod_add, Z.mod_small by lia. reflexivity.
  - lia.
  - replace (2 ^ 128) with (2 ^ 64 * 2 ^ 64) by reflexivity. nia.
Qed.

Lemma token_value_split_witness :
  Z.shiftr (Send.token_value 7 9) 64 = 7 /\
  Z.land (Send.token_value 7 9) (Z.ones 64) = 9 /\
  0 <= Send.token_value 7 9 < 2 ^ 128.
Proof. apply token_value_split; lia. Defined.

(** ** validate_message: the failure paths *)

Module ValidatorPaths.
Import Validator.

(** If the sender cannot be resolved, [validate_message] fails without ever
    running the validation call: with the error "TODO" when the sender has no
    actor, and with the lookup error under the context "failed to lookup
    actor " followed by the rendering of the sender's address when the lookup
    itself fails. *)
Theorem validate_message_unresolved_sender {GasSpec : Type}
    (lookup_id : Address -> result (option Z) AnyError)
    (marshal_cbor : ValidateParams -> result (list byte) AnyError)
    (deserialize : list byte -> result GasSpec AnyError)
    (address_to_string : Address -> string)
    (msg : Message) (sig : list byte) :
  (lookup_id (msg_from msg) = Ok None ->
   forall call_validate,
     validate_message GasSpec lookup_id marshal_cbor call_validate deserialize address_to_string msg sig
       = Err (anyhow "TODO")) /\
  (forall e, lookup_id (msg_from msg) = Err e ->
   forall call_validate,
     validate_message GasSpec lookup_id marshal_cbor call_validate deserialize address_to_string msg sig
       = Err (context_of ("failed to lookup actor " ++ address_to_string (msg_from msg)) e)).
Proof.
  split.
  - intros Hl cv. unfold validate_message. rewrite Hl. reflexivity.
  - intros e Hl cv. unfold validate_message. rewrite Hl. reflexivity.
Qed.

Definition lookup_missing (a : Address) : result (option Z) AnyError := Ok None.

Definition lookup_broken (a : Address) : result (option Z) AnyError :=
  Err (anyhow "state tree unavailable").

Lemma validate_message_unresolved_sender_witness :
  validate_message nat lookup_missing ValidatorFacts.marshal_concat
    (ValidatorFacts.call_ending (Ok (InvReturn None), 0, ValidatorFacts.bt0))
    ValidatorFacts.decode_byte ValidatorFacts.show_address ValidatorFacts.msg0 []
    = Err (anyhow "TODO") /\
  validate_message nat lookup_broken ValidatorFacts.marshal_concat
    (ValidatorFacts.call_ending (Ok (InvReturn None), 0, ValidatorFacts.bt0))
    ValidatorFacts.decode_byte ValidatorFacts.show_address ValidatorFacts.msg0 []
    = Err (context_of "failed to lookup actor f01" (anyhow "state tree unavailable")).
Proof.
  split.
  - destruct (validate_message_unresolved_sender lookup_missing ValidatorFacts.marshal_concat
                ValidatorFacts.decode_byte ValidatorFacts.show_address ValidatorFacts.msg0 [])
      as [Hnone _].
    exact (Hnone eq_refl _).
  - destruct (validate_message_unresolved_sender lookup_broken ValidatorFacts.marshal_concat
                ValidatorFacts.decode_byte ValidatorFacts.show_address ValidatorFacts.msg0 [])
      as [_ Herr].
    exact (Herr _ eq_refl _).
Defined.

(** If the validation parameters cannot be encoded, [validate_message] fails
    with an [OutOfGas] execution error and the validation call is not made. *)
Theorem validate_message_params_unencodable {GasSpec : Type}
    (lookup_id : Address -> result (option Z) AnyError)
    (marshal_cbor : ValidateParams -> result (list byte) AnyError)
    (deserialize : list byte -> result GasSpec AnyError)
    (address_to_string : Address -> string)
    (msg : Message) (sig : list byte) (sender_id : Z) (e : AnyError) :
  lookup_id (msg_from msg) = Ok (Some sender_id) ->
  marshal_cbor {| signature := sig; message_payload := msg_params msg |} = Err e ->
  forall call_validate,
    validate_message GasSpec lookup_id marshal_cbor call_validate deserialize address_to_string msg sig
      = Err (from_exec OutOfGas).
Proof.
  intros Hl Hm cv. unfold validate_message, run_validation. rewrite Hl, Hm. reflexivity.
Qed.

Definition marshal_fails (p : ValidateParams) : result (list byte) AnyError :=
  Err (anyhow "cbor").

Lemma validate_message_params_unencodable_witness :
  validate_message nat ValidatorFacts.lookup_found marshal_fails
    (ValidatorFacts.call_ending (Ok (InvReturn None), 0, ValidatorFacts.bt0))
    ValidatorFacts.decode_byte ValidatorFacts.show_address ValidatorFacts.msg0 [] = Err (from_exec OutOfGas).
Proof.
  exact (validate_message_params_unencodable ValidatorFacts.lookup_found marshal_fails
           ValidatorFacts.decode_byte ValidatorFacts.show_address ValidatorFacts.msg0 [] 100 (anyhow "cbor")
           eq_refl eq_refl _).
Defined.

(** How the outcome of the validation call is reported: a failure carrying
    the success exit code 0 is the error "actor failed with status OK", and an
    execution error of the call (even a fatal one) is reported as the
    validation failure "actor failed to validate with TODO". *)
Theorem validate_message_call_failures {GasSpec : Type}
    (lookup_id : Address -> result (option Z) AnyError)
    (marshal_cbor : ValidateParams -> result (list byte) AnyError)
    (call_validate : Z -> Z * Address -> Z -> Block -> Z -> CallOutcome)
    (deserialize : list byte -> result GasSpec AnyError)
    (address_to_string : Address -> string)
    (msg : Message) (sig : list byte) (sender_id : Z) (params : list byte)
    (gas_used : Z) (backtrace : Backtrace) :
  lookup_id (msg_from msg) = Ok (Some sender_id) ->
  marshal_cbor {| signature := sig; message_payload := msg_params msg |} = Ok params ->
  let call := call_validate VALIDATION_GAS_LIMIT (sender_id, msg_from msg) (msg_sequence msg)
                {| blk_codec := DAG_CBOR; blk_data := params |} sender_id in
  (call = (Ok (InvFailure 0), gas_used, backtrace) ->
   validate_message GasSpec lookup_id marshal_cbor call_validate deserialize address_to_string msg sig
     = Err (anyhow "actor failed with status OK")) /\
  (forall e, call = (Err e, gas_used, backtrace) ->
   validate_message GasSpec lookup_id marshal_cbor call_validate deserialize address_to_string msg sig
     = Err (anyhow "actor failed to validate with TODO")).
Proof.
  intros Hl Hm call. split.
  - intros Hc. unfold validate_message, run_validation. rewrite Hl, Hm.
    fold call. rewrite Hc. reflexivity.
  - intros e Hc. unfold validate_message, run_validation. rewrite Hl, Hm.
    fold call. rewrite Hc. reflexivity.
Qed.

Lemma validate_message_call_failures_witness :
  validate_message nat ValidatorFacts.lookup_found ValidatorFacts.marshal_concat
    (ValidatorFacts.call_ending (Err (Fatal "machine corrupted"), 0, ValidatorFacts.bt0))
    ValidatorFacts.decode_byte ValidatorFacts.show_address ValidatorFacts.msg0 []
    = Err (anyhow "actor failed to validate with TODO").
Proof.
  destruct (validate_message_call_failures ValidatorFacts.lookup_found
              ValidatorFacts.marshal_concat
              (ValidatorFacts.call_ending (Err (Fatal "machine corrupted"), 0, ValidatorFacts.bt0))
              ValidatorFacts.decode_byte ValidatorFacts.show_address ValidatorFacts.msg0 [] 100 [x09] 0 ValidatorFacts.bt0
              eq_refl eq_refl) as [_ Herr].
  exact (Herr _ eq_refl).
Defined.

End ValidatorPaths.

(** ** Binding tables: per-capability impls, uniqueness *)

Module BindingTables.
Import Binding.

(** For the debug, send and rand modules, the entries [bind_syscalls] makes
    are exactly those the module's own [Bind] impl makes on a fresh linker:
    same names, same handlers, same order, with or without [m2-native]. *)
Theorem bind_impls_agree_with_table (m2_native : bool) :
  match bind_syscalls m2_native [], bind_debug [], bind_send [], bind_rand [] with
  | Ok full, Ok debug, Ok send, Ok rand =>
      module_entries "debug" full = debug /\
      module_entries "send" full = send /\
      module_entries "rand" full = rand
  | _, _, _, _ => False
  end.
Proof. destruct m2_native; vm_compute; repeat split. Qed.

(** [bind_syscalls] defines every (module, function) name once: 35 names
    without [m2-native] and 36 with it, the extra one being
    [actor.install_actor]; binding the table a second time into the same
    linker fails. *)
Theorem bind_syscalls_names_unique (m2_native : bool) :
  match bind_syscalls m2_native [] with
  | Ok l =>
      NoDup (map entry_name l) /\
      List.length l = (if m2_native then 36 else 35)%nat /\
      (In ("actor", "install_actor")%string (map entry_name l) <-> m2_native = true) /\
      is_ok (bind_syscalls m2_native l) = false
  | Err _ => False
  end.
Proof.
  destruct m2_native; vm_compute.
  - split; [repeat constructor; simpl; intuition congruence|].
    split; [reflexivity|]. split; [|reflexivity].
    split; [reflexivity|]. intros _. simpl. tauto.
  - split; [repeat constructor; simpl; intuition congruence|].
    split; [reflexivity|]. split; [|reflexivity].
    split; [|discriminate]. intros Hin.
    repeat (destruct Hin as [Hin|Hin]; [discriminate|]). destruct Hin.
Qed.

End BindingTables.
